(** * chantrader web front end: store and boundary types

  A shallow embedding of [web/frontend/src/types/index.ts] and
  [web/frontend/src/stores/appStore.ts], together with a model of zone
  opening and of bar validation in the analysis engine as the
  specification describes them, and of
  the handlers and data conversions of the components and pages that use
  the store ([StockSearch], [PlotConfigPanel], [ChanChart],
  [AdvancedChanChart], [SingleLevelPage], [MultiLevelPage]).

  Conventions.
  - A TypeScript [number] is modelled by [Z]: indices and counts are
    integers, prices and rates are taken in fixed-point units, and the
    only operations applied to them are comparison, [min] and [max],
    which are exact on finite doubles.
  - A TypeScript union of string literals is an inductive type.
  - A JavaScript object used through computed keys is a
    [gmap string JsValue]; an object only read through fixed fields is
    a record.
  - [T | null] is [option T]. *)

From Stdlib Require Import ZArith Ascii String List Bool Lia.
From stdpp Require Import base option list strings pretty gmap.

Local Open Scope Z_scope.
Local Open Scope string_scope.

(** ** JavaScript values that occur in flat objects *)

Inductive JsValue : Type :=
| JUndefined
| JNull
| JBool (b : bool)
| JNum (n : Z)
| JStr (s : string).

(** ** [types/index.ts] *)

Module Types.

Definition number := Z.

(** [KLineType]: '1分钟' | '5分钟' | '15分钟' | '30分钟' | '60分钟' |
    '日线' | '周线' | '月线'. *)
Inductive KLineType : Type :=
  | K_1M | K_5M | K_15M | K_30M | K_60M | K_DAY | K_WEEK | K_MON.

Record StockInfo : Type := mkStockInfo {
  code : string;
  name : string;
}.

Record KLineUnit : Type := mkKLineUnit {
  kl_idx : number;
  kl_time : string;
  kl_open : number;
  kl_high : number;
  kl_low : number;
  kl_close : number;
  kl_volume : number;
}.

Inductive Direction : Type := up | down.

Record BiInfo : Type := mkBiInfo {
  bi_idx : number;
  bi_begin_idx : number;
  bi_end_idx : number;
  bi_begin_x : number;
  bi_end_x : number;
  bi_begin_y : number;
  bi_end_y : number;
  bi_is_sure : bool;
  bi_direction : Direction;
}.

Record SegInfo : Type := mkSegInfo {
  seg_idx : number;
  seg_begin_idx : number;
  seg_end_idx : number;
  seg_begin_x : number;
  seg_end_x : number;
  seg_begin_y : number;
  seg_end_y : number;
  seg_is_sure : bool;
  seg_direction : Direction;
}.

Record ZSInfo : Type := mkZSInfo {
  zs_idx : number;
  zs_begin : number;
  zs_end : number;
  zs_low : number;
  zs_high : number;
  zs_is_sure : bool;
}.

Record BSPInfo : Type := mkBSPInfo {
  bsp_idx : number;
  bsp_x : number;
  bsp_y : number;
  bsp_is_buy : bool;
  bsp_type : string;
  bsp_is_sure : bool;
}.

Record MACDInfo : Type := mkMACDInfo {
  macd_idx : number;
  macd_dif : number;
  macd_dea : number;
  macd_macd : number;
}.

Record ChanAnalysisResult : Type := mkChanAnalysisResult {
  res_code : string;
  res_name : string;
  res_kl_type : string;
  klines : list KLineUnit;
  bi_list : list BiInfo;
  seg_list : list SegInfo;
  zs_list : list ZSInfo;
  bsp_list : list BSPInfo;
  macd_list : list MACDInfo;
  dateticks : list string;
}.

(** [levels: Record<string, ChanAnalysisResult>]. *)
Record MultiLevelResult : Type := mkMultiLevelResult {
  ml_code : string;
  ml_name : string;
  levels : gmap string ChanAnalysisResult;
}.

Record ChanConfig : Type := mkChanConfig {
  bi_strict : bool;
  trigger_step : bool;
  divergence_rate : number;
  bsp2_follow_1 : bool;
  bsp3_follow_1 : bool;
  min_zs_cnt : number;
  bs1_peak : bool;
  macd_algo : string;
  bs_type : string;
  zs_algo : string;
}.

(** [PlotConfig] has the six boolean fields listed in
    [PlotConfig_fields]. The store reads and writes it through computed
    keys ([plotConfig[key]], [{ [key]: ... }]) and through object
    spread, so it is kept as a map from field names to values. *)
Definition PlotConfig_fields : list string :=
  ["showKline"; "showBi"; "showSeg"; "showZs"; "showBsp"; "showMacd"].

End Types.

Import Types.

(** ** [stores/appStore.ts] *)

Module AppStore.

(** The data fields of [AppState]; the setter fields are the functions
    defined below. *)
Record AppState : Type := mkAppState {
  currentStock : option StockInfo;
  analysisResult : option ChanAnalysisResult;
  multiLevelResult : option MultiLevelResult;
  isAnalyzing : bool;
  klType : KLineType;
  periods : number;
  selectedLevels : list KLineType;
  plotConfig : gmap string JsValue;
  history : list StockInfo;
}.

(** A partial state, the argument of zustand's [set]: a field that is
    [None] is absent from the object literal. *)
Record AppPatch : Type := mkAppPatch {
  p_currentStock : option (option StockInfo);
  p_analysisResult : option (option ChanAnalysisResult);
  p_multiLevelResult : option (option MultiLevelResult);
  p_isAnalyzing : option bool;
  p_klType : option KLineType;
  p_periods : option number;
  p_selectedLevels : option (list KLineType);
  p_plotConfig : option (gmap string JsValue);
  p_history : option (list StockInfo);
}.

Definition no_patch : AppPatch :=
  mkAppPatch None None None None None None None None None.

(** [Object.assign({}, state, partial)]: zustand's shallow merge. *)
Definition assign (state : AppState) (partial : AppPatch) : AppState :=
  {| currentStock := default (currentStock state) (p_currentStock partial);
     analysisResult := default (analysisResult state) (p_analysisResult partial);
     multiLevelResult := default (multiLevelResult state) (p_multiLevelResult partial);
     isAnalyzing := default (isAnalyzing state) (p_isAnalyzing partial);
     klType := default (klType state) (p_klType partial);
     periods := default (periods state) (p_periods partial);
     selectedLevels := default (selectedLevels state) (p_selectedLevels partial);
     plotConfig := default (plotConfig state) (p_plotConfig partial);
     history := default (history state) (p_history partial) |}.

(** Object spread [{ ...a, ...b }]: the keys of [a], overridden and
    extended by the keys of [b] (stdpp's union keeps the left value). *)
Definition spread (a b : gmap string JsValue) : gmap string JsValue := b ∪ a.

(** The object returned by [partialize]. *)
Record PersistedState : Type := mkPersistedState {
  ps_klType : KLineType;
  ps_periods : number;
  ps_selectedLevels : list KLineType;
  ps_plotConfig : gmap string JsValue;
  ps_history : list StockInfo;
}.

Definition partialize (state : AppState) : PersistedState :=
  {| ps_klType := klType state;
     ps_periods := periods state;
     ps_selectedLevels := selectedLevels state;
     ps_plotConfig := plotConfig state;
     ps_history := history state |}.

(** The [name] option of [persist]. *)
Definition storage_name : string := "chan-web-storage".

(** What the [persist] middleware keeps under a key: the partialized
    state and the version of the store (0 when none is configured). *)
Record StorageValue : Type := mkStorageValue {
  sv_state : PersistedState;
  sv_version : Z;
}.

(** The store: the current state and the key-value storage behind
    [persist]. *)
Record Store : Type := mkStore {
  state : AppState;
  storage : gmap string StorageValue;
}.

(** The [set] that [persist] hands to the state creator: merge the
    partial state computed from the current state, then write
    [partialize] of the new state under [name]. *)
Definition set_state (partial : AppState → AppPatch) (st : Store) : Store :=
  let state' := assign (state st) (partial (state st)) in
  {| state := state';
     storage := <[storage_name := mkStorageValue (partialize state') 0]> (storage st) |}.

Definition initial_plotConfig : gmap string JsValue :=
  list_to_map ((λ k, (k, JBool true)) <$> PlotConfig_fields).

Definition initial_state : AppState :=
  {| currentStock := None;
     analysisResult := None;
     multiLevelResult := None;
     isAnalyzing := false;
     klType := K_DAY;
     periods := 300;
     selectedLevels := [K_DAY; K_60M; K_15M];
     plotConfig := initial_plotConfig;
     history := [] |}.

Definition setCurrentStock (stock : option StockInfo) : Store → Store :=
  set_state (λ _, mkAppPatch (Some stock) None None None None None None None None).

Definition setAnalysisResult (result : option ChanAnalysisResult) : Store → Store :=
  set_state (λ _, mkAppPatch None (Some result) None None None None None None None).

Definition setMultiLevelResult (result : option MultiLevelResult) : Store → Store :=
  set_state (λ _, mkAppPatch None None (Some result) None None None None None None).

Definition setIsAnalyzing (value : bool) : Store → Store :=
  set_state (λ _, mkAppPatch None None None (Some value) None None None None None).

Definition setKlType (type : KLineType) : Store → Store :=
  set_state (λ _, mkAppPatch None None None None (Some type) None None None None).

Definition setPeriods (periods : number) : Store → Store :=
  set_state (λ _, mkAppPatch None None None None None (Some periods) None None None).

Definition setSelectedLevels (levels : list KLineType) : Store → Store :=
  set_state (λ _, mkAppPatch None None None None None None (Some levels) None None).

Definition setPlotConfig (config : gmap string JsValue) : Store → Store :=
  set_state (λ state,
    mkAppPatch None None None None None None None
      (Some (spread (plotConfig state) config)) None).

(** JavaScript truthiness, for the [!] of [toggleOption]; an absent key
    reads as [undefined]. *)
Definition truthy (v : option JsValue) : bool :=
match v with
| None | Some JUndefined | Some JNull => false
| Some (JBool b) => b
| Some (JNum n) => negb (n =? 0)%Z
| Some (JStr s) => negb (String.eqb s "")
end.

(** [toggleOption] of the configuration panel:
    [setPlotConfig({ [key]: !plotConfig[key] })]. *)
Definition toggleOption (key : string) (st : Store) : Store :=
setPlotConfig {[ key := JBool (negb (truthy (plotConfig (state st) !! key))) ]} st.

Definition addToHistory (stock : StockInfo) : Store → Store :=
  set_state (λ state,
    let filtered := filter (λ s, code s ≠ code stock) (history state) in
    mkAppPatch None None None None None None None None
      (Some (take 20 (stock :: filtered)))).

Definition clearHistory : Store → Store :=
  set_state (λ _, mkAppPatch None None None None None None None None (Some [])).

(** The calls a component can make on the store. *)
Inductive Action : Type :=
  | SetCurrentStock (stock : option StockInfo)
  | SetAnalysisResult (result : option ChanAnalysisResult)
  | SetMultiLevelResult (result : option MultiLevelResult)
  | SetIsAnalyzing (value : bool)
  | SetKlType (type : KLineType)
  | SetPeriods (periods : number)
  | SetSelectedLevels (levels : list KLineType)
  | SetPlotConfig (config : gmap string JsValue)
  | AddToHistory (stock : StockInfo)
  | ClearHistory.

Definition call (a : Action) : Store → Store :=
  match a with
  | SetCurrentStock stock => setCurrentStock stock
  | SetAnalysisResult result => setAnalysisResult result
  | SetMultiLevelResult result => setMultiLevelResult result
  | SetIsAnalyzing value => setIsAnalyzing value
  | SetKlType type => setKlType type
  | SetPeriods periods => setPeriods periods
  | SetSelectedLevels levels => setSelectedLevels levels
  | SetPlotConfig config => setPlotConfig config
  | AddToHistory stock => addToHistory stock
  | ClearHistory => clearHistory
  end.

(** Calls made one after the other, the head of the list first. *)
Definition calls (acts : list Action) (st : Store) : Store :=
  foldl (λ st a, call a st) st acts.

(** The state with its four transient fields replaced. *)
Definition with_transient (cs : option StockInfo)
    (ar : option ChanAnalysisResult) (mr : option MultiLevelResult)
    (ia : bool) (s : AppState) : AppState :=
  {| currentStock := cs;
     analysisResult := ar;
     multiLevelResult := mr;
     isAnalyzing := ia;
     klType := klType s;
     periods := periods s;
     selectedLevels := selectedLevels s;
     plotConfig := plotConfig s;
     history := history s |}.

(** The store before any call: nothing has been written yet. *)
Definition initial_store : Store := mkStore initial_state ∅.

End AppStore.

(** ** The analysis engine at its boundary

  The engine (bar merger, stroke, segment and zone builders, signal
  classifier, analysis context) is not among the source files; only the
  records it returns ([Types]) and its callers are. The definitions of
  this module follow the specification. *)

Module Engine.

(** Modelled from the spec: the error taxonomy of section 7; the engine's
    exceptions are missing from the source files. *)
Inductive Error : Type := DataError | ConfigError | InvariantViolation.

(** Modelled from the spec: a Bar, section 3 (timestamp, open, high, low,
    close, volume); the engine's bar type is missing. *)
Record Bar : Type := mkBar {
  timestamp : Z;
  open : Z;
  high : Z;
  low : Z;
  close : Z;
  volume : Z;
}.

(** Modelled from the spec: the direction of a merged candle, section 3
    (up, down, undetermined); the bar merger is missing. *)
Inductive CandleDirection : Type := candle_up | candle_down | undetermined.

(** Modelled from the spec: a MergedCandle, section 3; the bar merger
    and its candle type are missing. *)
Record MergedCandle : Type := mkMergedCandle {
  mc_index : Z;
  mc_high : Z;
  mc_low : Z;
  mc_direction : CandleDirection;
  mc_begin : Z;
  mc_end : Z;
}.

(** Modelled from the spec: a Stroke or a Segment, section 3: begin and
    end index and price, direction, confirmed flag; the stroke and
    segment builders are missing. *)
Record Swing : Type := mkSwing {
  sw_begin : Z;
  sw_end : Z;
  sw_begin_price : Z;
  sw_end_price : Z;
  sw_direction : Direction;
  sw_confirmed : bool;
}.

(** Modelled from the spec: the [low, high] price range of a swing,
    section 4.4; the zone builder, which reads it, is missing. *)
Record Range : Type := mkRange {
  lo : Z;
  hi : Z;
}.

(** Modelled from the spec: a Zone, section 3: price bounds, begin and
    end index, confirmed flag, optional extended flag; the zone builder
    and its zone type are missing. *)
Record Zone : Type := mkZone {
  z_low : Z;
  z_high : Z;
  z_begin : Z;
  z_end : Z;
  z_confirmed : bool;
  z_extended : option bool;
}.

(** Modelled from the spec: the closed set of signal types, section 3:
    1, 2, 3a, 3b, 1p, 2s; the signal classifier is missing. *)
Inductive SignalType : Type := T1 | T2 | T3a | T3b | T1p | T2s.

#[global] Instance SignalType_eq_dec : EqDecision SignalType.
Proof. solve_decision. Defined.

Definition all_signal_types : list SignalType := [T1; T2; T3a; T3b; T1p; T2s].

(** Modelled from the spec: a Signal, section 3: reference index, type,
    is_buy, confirmed flag, divergence measurement; the signal classifier
    and its signal type are missing. *)
Record Signal : Type := mkSignal {
  sig_ref : Z;
  sig_type : SignalType;
  sig_is_buy : bool;
  sig_confirmed : bool;
  sig_divergence : Z;
}.

#[global] Instance Signal_eq_dec : EqDecision Signal.
Proof. solve_decision. Defined.

(** Modelled from the spec: the algorithm variants of section 6; the
    engine's configuration class is missing. *)
Inductive SegAlgo : Type := seg_chan | seg_1plus1 | seg_break.
Inductive ZsAlgo : Type := zs_normal | zs_over_seg | zs_auto.

(** Modelled from the spec: the validated configuration record of
    sections 6 and 9; the engine's configuration class is missing. *)
Record Config : Type := mkConfig {
  cfg_bi_strict : bool;
  cfg_seg_algo : SegAlgo;
  cfg_zs_algo : ZsAlgo;
  cfg_zs_combine : bool;
  cfg_divergence_rate : Z;
  cfg_min_zs_cnt : Z;
  cfg_bs_type : list SignalType;
  cfg_trigger_step : bool;
}.

(** Modelled from the spec: the AnalysisContext of section 3, which owns
    the five ordered lists; it also keeps its configuration and the last
    bar it accepted, against which the next timestamp is checked. The
    engine's context class is missing. *)
Record AnalysisContext : Type := mkContext {
  ctx_config : Config;
  ctx_last_bar : option Bar;
  merged_candles : list MergedCandle;
  strokes : list Swing;
  segments : list Swing;
  zones : list Zone;
  signals : list Signal;
}.

(** Modelled from the spec: the context a timeframe starts with, before
    any bar; the engine's context class is missing. *)
Definition fresh (cfg : Config) : AnalysisContext :=
mkContext cfg None [] [] [] [] [].

(** The five structural lists of a context. *)
Definition context_lists (ctx : AnalysisContext)
  : list MergedCandle * list Swing * list Swing * list Zone * list Signal :=
(merged_candles ctx, strokes ctx, segments ctx, zones ctx, signals ctx).

(** Modelled from the spec: a malformed bar, section 4.1: low above high,
    or a timestamp that does not increase strictly; the engine's bar
    check is missing. *)
Definition malformed (ctx : AnalysisContext) (bar : Bar) : bool :=
(high bar <? low bar)%Z
|| match ctx_last_bar ctx with
   | Some prev => (timestamp bar <=? timestamp prev)%Z
   | None => false
   end.

(** Modelled from the spec: the feed operation, sections 2 and 4.1; the
    engine's feed is missing. A malformed bar is rejected with
    [DataError] and not applied; a valid bar goes through the five stages
    in order ([stages], whose algorithms are not part of this model) and
    becomes the last accepted bar. *)
Definition feed (stages : AnalysisContext → Bar → AnalysisContext)
    (ctx : AnalysisContext) (bar : Bar) : AnalysisContext * option Error :=
if malformed ctx bar then (ctx, Some DataError)
else
  let ctx' := stages ctx bar in
  (mkContext (ctx_config ctx) (Some bar) (merged_candles ctx') (strokes ctx')
     (segments ctx') (zones ctx') (signals ctx'), None).

(** Modelled from the spec: the overlap of two [low, high] ranges,
    section 4.4, read as closed intervals that share a price; the zone
    builder is missing. *)
Definition overlap (r1 r2 : Range) : Prop :=
(Z.max (lo r1) (lo r2) <= Z.min (hi r1) (hi r2))%Z.

(** Modelled from the spec: the intersection of three ranges, section
    4.4; the zone builder is missing. *)
Definition intersection3 (r1 r2 r3 : Range) : Range :=
{| lo := Z.max (Z.max (lo r1) (lo r2)) (lo r3);
   hi := Z.min (Z.min (hi r1) (hi r2)) (hi r3) |}.

(** Modelled from the spec: zone opening, section 4.4; the zone builder
    is missing. Three consecutive swings, the first at index [first],
    open a zone candidate when their ranges have a common part; its
    bounds are that intersection. A candidate is not confirmed and not
    extended yet. *)
Definition try_open_zone (first : Z) (r1 r2 r3 : Range) : option Zone :=
let common := intersection3 r1 r2 r3 in
if (lo common <=? hi common)%Z
then Some {| z_low := lo common; z_high := hi common;
             z_begin := first; z_end := first + 2;
             z_confirmed := false; z_extended := None |}
else None.

End Engine.

(** ** JavaScript operations the components use *)

Module Js.

(** [array[i]] for a number [i]: the element at a non-negative index
    within bounds, [undefined] otherwise. *)
Definition index {A : Type} (l : list A) (i : Z) : option A :=
if (i <? 0)%Z then None else l !! Z.to_nat i.

(** [Math.floor] on an integer. *)
Definition floor (x : Z) : Z := x.

(** [array.slice(-n)]: the last [n] elements, all of them when there are
    fewer; [slice(-0)] is [slice(0)], the whole array. *)
Definition slice_last {A : Type} (n : nat) (l : list A) : list A :=
match n with
| O => l
| S _ => drop (length l - n) l
end.

(** [s.split(' ')[0]]: the part of [s] before its first space, all of
    [s] when it has none. *)
Fixpoint before_space (s : string) : string :=
match s with
| EmptyString => EmptyString
| String c rest =>
    if Ascii.eqb c " "%char then EmptyString else String c (before_space rest)
end.


(** What a handler or an effect throws. *)
Inductive Thrown : Type := TypeError.

End Js.

(** ** [components/StockSearch.tsx] *)

Module StockSearch.

Import AppStore.

(** The component's own state ([useState]). *)
Record SearchState : Type := mkSearchState {
  keyword : string;
  isOpen : bool;
  selectedIndex : Z;
}.

(** [keyword.length >= 1 ? searchResults || [] : history]. *)
Definition displayList (keyword : string)
    (searchResults : option (list StockInfo)) (history : list StockInfo)
  : list StockInfo :=
if (1 <=? String.length keyword)%nat then default [] searchResults else history.

(** [handleSelect]; [onSelect] is the optional callback of the page, as
    its effect on the store. *)
Definition handleSelect (onSelect : option (StockInfo → Store → Store))
    (stock : StockInfo) (ui : SearchState) (st : Store) : SearchState * Store :=
let st1 := setCurrentStock (Some stock) st in
let st2 := addToHistory stock st1 in
let ui' := {| keyword := code stock ++ "  " ++ name stock;
              isOpen := false;
              selectedIndex := selectedIndex ui |} in
(ui', match onSelect with Some f => f stock st2 | None => st2 end).

(** The keys [handleKeyDown] tells apart. *)
Inductive Key : Type := ArrowDown | ArrowUp | Enter | Escape | OtherKey.

(** [handleKeyDown] over the list on display. *)
Definition handleKeyDown (onSelect : option (StockInfo → Store → Store))
    (displayList : list StockInfo) (key : Key)
    (ui : SearchState) (st : Store) : SearchState * Store :=
if negb (isOpen ui) || (length displayList =? 0)%nat then (ui, st)
else
  match key with
  | ArrowDown =>
      let prev := selectedIndex ui in
      ({| keyword := keyword ui; isOpen := isOpen ui;
          selectedIndex :=
            if (prev <? Z.of_nat (length displayList) - 1)%Z
            then (prev + 1)%Z else 0%Z |}, st)
  | ArrowUp =>
      let prev := selectedIndex ui in
      ({| keyword := keyword ui; isOpen := isOpen ui;
          selectedIndex :=
            if (0 <? prev)%Z
            then (prev - 1)%Z else (Z.of_nat (length displayList) - 1)%Z |}, st)
  | Enter =>
      match Js.index displayList (selectedIndex ui) with
      | Some stock => handleSelect onSelect stock ui st
      | None => (ui, st)
      end
  | Escape =>
      ({| keyword := keyword ui; isOpen := false;
          selectedIndex := selectedIndex ui |}, st)
  | OtherKey => (ui, st)
  end.

(** The same key pressed [n] times over an unchanged list. *)
Fixpoint press (onSelect : option (StockInfo → Store → Store))
    (displayList : list StockInfo) (key : Key) (n : nat)
    (ui : SearchState) (st : Store) : SearchState * Store :=
match n with
| O => (ui, st)
| S n' =>
    let r := handleKeyDown onSelect displayList key ui st in
    press onSelect displayList key n' r.1 r.2
end.

(** [currentStock?.code === stock.code]: the entry that gets the
    "current" badge. *)
Definition is_current (currentStock : option StockInfo) (stock : StockInfo) : bool :=
match currentStock with
| Some c => bool_decide (code c = code stock)
| None => false
end.

End StockSearch.

(** ** [components/ChanChart.tsx] and [components/AdvancedChanChart.tsx] *)

Module Charts.

Import AppStore.

Record CandlestickData : Type := mkCandle {
  c_time : string;
  c_open : number;
  c_high : number;
  c_low : number;
  c_close : number;
}.

Record LineData : Type := mkLine {
  l_time : string;
  l_value : number;
}.



(** [kl.time.split(' ')[0]]. *)
Definition kline_date (kl : KLineUnit) : string := Js.before_space (kl_time kl).

(** [data.klines[Math.floor(x)]]. *)
Definition kline_at (klines : list KLineUnit) (x : number) : option KLineUnit :=
Js.index klines (Js.floor x).

Definition candle_of (kl : KLineUnit) : CandlestickData :=
mkCandle (kline_date kl) (kl_open kl) (kl_high kl) (kl_low kl) (kl_close kl).


(** The two points a stroke or a segment pushes on its line, when both
    its end candles exist. *)
Definition line_points (klines : list KLineUnit)
    (begin_x end_x begin_y end_y : number) : list LineData :=
match kline_at klines begin_x, kline_at klines end_x with
| Some beginKl, Some endKl =>
    [mkLine (kline_date beginKl) begin_y; mkLine (kline_date endKl) end_y]
| _, _ => []
end.

(** [biData] of AdvancedChanChart: a [forEach] that pushes on an array. *)
Definition biData (data : ChanAnalysisResult) : list LineData :=
foldl (λ acc bi,
         (acc ++ line_points (klines data) (bi_begin_x bi) (bi_end_x bi)
                   (bi_begin_y bi) (bi_end_y bi))%list)
      [] (bi_list data).

Definition segData (data : ChanAnalysisResult) : list LineData :=
foldl (λ acc seg,
         (acc ++ line_points (klines data) (seg_begin_x seg) (seg_end_x seg)
                   (seg_begin_y seg) (seg_end_y seg))%list)
      [] (seg_list data).










End Charts.

(** ** [pages/SingleLevelPage.tsx] and [pages/MultiLevelPage.tsx] *)

Module Pages.

Import AppStore.

(** The string each [KLineType] is. *)
Definition KLineType_label (t : KLineType) : string :=
match t with
| K_1M => "1分钟"
| K_5M => "5分钟"
| K_15M => "15分钟"
| K_30M => "30分钟"
| K_60M => "60分钟"
| K_DAY => "日线"
| K_WEEK => "周线"
| K_MON => "月线"
end.

Record Preset : Type := mkPreset {
  preset_name : string;
  preset_levels : list KLineType;
}.

Definition PRESET_LEVELS : list Preset :=
[ mkPreset "日线 + 60分钟" [K_DAY; K_60M];
  mkPreset "日线 + 60分钟 + 15分钟" [K_DAY; K_60M; K_15M];
  mkPreset "日线 + 30分钟 + 5分钟" [K_DAY; K_30M; K_5M];
  mkPreset "周线 + 日线" [K_WEEK; K_DAY];
  mkPreset "周线 + 日线 + 60分钟" [K_WEEK; K_DAY; K_60M];
  mkPreset "60分钟 + 15分钟 + 5分钟" [K_60M; K_15M; K_5M] ].

(** [handlePresetChange]: the new [selectedPreset], the store and what
    is thrown. [setSelectedPreset(index)] comes first and is made in
    every case; [PRESET_LEVELS[index].levels] then throws a TypeError
    when there is no such preset, before the store is touched. *)
Definition handlePresetChange (index : Z) (st : Store)
  : Z * Store * option Js.Thrown :=
match Js.index PRESET_LEVELS index with
| Some preset => (index, setSelectedLevels (preset_levels preset) st, None)
| None => (index, st, Some Js.TypeError)
end.

(** [chartHeight], from the number of selected levels. *)
Definition chartHeight (selectedLevels : list KLineType) : Z :=
if (length selectedLevels =? 2)%nat then 400
else if (length selectedLevels =? 3)%nat then 300
else 250.

(** The charts of the multi-level page: one for each selected level the
    result has data for, in the order of the selection. *)
Definition level_charts (selectedLevels : list KLineType)
    (multiLevelResult : MultiLevelResult)
  : list (KLineType * ChanAnalysisResult * Z) :=
omap (λ level,
        match levels multiLevelResult !! KLineType_label level with
        | Some data => Some (level, data, chartHeight selectedLevels)
        | None => None
        end)
     selectedLevels.

(** [data.bsp_list.slice(-3)] of the multi-level summary and
    [analysisResult.bsp_list.slice(-10)] of the single-level one. *)
Definition recentBsp (data : ChanAnalysisResult) : list BSPInfo :=
Js.slice_last 3 (bsp_list data).

Definition summaryBsp (analysisResult : ChanAnalysisResult) : list BSPInfo :=
Js.slice_last 10 (bsp_list analysisResult).

(** [onSuccess] of the single-level analysis; [currentStock] is the
    value the callback closes over. *)
Definition single_onSuccess (currentStock : option StockInfo)
    (data : ChanAnalysisResult) (st : Store) : Store :=
let st1 := setAnalysisResult (Some data) st in
match currentStock with
| Some stock => addToHistory stock st1
| None => st1
end.

(** [onSuccess] of the multi-level analysis. *)
Definition multi_onSuccess (currentStock : option StockInfo)
    (data : MultiLevelResult) (st : Store) : Store :=
let st1 := setMultiLevelResult (Some data) st in
match currentStock with
| Some stock => addToHistory stock st1
| None => st1
end.

(** The store effect of [handleSelectStock], the [onSelect] both pages
    pass to the search box; the analysis request it also sends does not
    touch the store. *)
Definition handleSelectStock (stock : StockInfo) (st : Store) : Store :=
setCurrentStock (Some stock) st.

End Pages.

(** ** Vocabulary for the properties of the store *)

Module Fields.

Import AppStore.

(** The fields of [AppState]. *)
Inductive Field : Type :=
| F_currentStock | F_analysisResult | F_multiLevelResult | F_isAnalyzing
| F_klType | F_periods | F_selectedLevels | F_plotConfig | F_history.

#[global] Instance Field_eq_dec : EqDecision Field.
Proof. solve_decision. Defined.

(** The field a call writes. *)
Definition field_of (a : Action) : Field :=
match a with
| SetCurrentStock _ => F_currentStock
| SetAnalysisResult _ => F_analysisResult
| SetMultiLevelResult _ => F_multiLevelResult
| SetIsAnalyzing _ => F_isAnalyzing
| SetKlType _ => F_klType
| SetPeriods _ => F_periods
| SetSelectedLevels _ => F_selectedLevels
| SetPlotConfig _ => F_plotConfig
| AddToHistory _ => F_history
| ClearHistory => F_history
end.

(** The calls whose partial state does not read the current state. *)
Definition overwrites (a : Action) : bool :=
match a with
| SetPlotConfig _ | AddToHistory _ => false
| _ => true
end.

(** A plot configuration as [PlotConfig] declares it: the six switches,
    each a boolean, and no other key. *)
Definition PlotConfig_typed (m : gmap string JsValue) : Prop :=
∀ k, if decide (k ∈ PlotConfig_fields)
     then ∃ b, m !! k = Some (JBool b)
     else m !! k = None.

(** A stroke or segment both of whose end candles exist. *)
Definition drawable (klines : list KLineUnit) (begin_x end_x : number) : bool :=
bool_decide (0 <= begin_x < Z.of_nat (length klines))%Z
&& bool_decide (0 <= end_x < Z.of_nat (length klines))%Z.

(** A string without a space. *)
Definition space_free (s : string) : Prop :=
" "%char ∉ list_ascii_of_string s.

End Fields.

(** ** Concrete inputs used by the examples below *)

Module Examples.

Import AppStore.

Definition pingan : StockInfo := mkStockInfo "000001" "PAYH".
Definition pingan_renamed : StockInfo := mkStockInfo "000001" "Ping An Bank".
Definition vanke : StockInfo := mkStockInfo "000002" "WKA".
Definition pufa : StockInfo := mkStockInfo "600000" "PFYH".

(** A store whose history holds the same code twice, as a hand-edited
    or stale storage entry rehydrates it. *)
Definition store_with_duplicates : Store :=
mkStore (with_transient None None None false
           {| currentStock := None; analysisResult := None;
              multiLevelResult := None; isAnalyzing := false;
              klType := K_DAY; periods := 300;
              selectedLevels := [K_DAY; K_60M; K_15M];
              plotConfig := initial_plotConfig;
              history := [pingan; pingan_renamed] |}) ∅.

(** A store whose history is full: the twenty codes 100 to 119. *)
Definition numbered (n : nat) : StockInfo := mkStockInfo (pretty n) "listed".
Definition full_store : Store :=
mkStore {| currentStock := None; analysisResult := None;
           multiLevelResult := None; isAnalyzing := false;
           klType := K_DAY; periods := 300;
           selectedLevels := [K_DAY; K_60M; K_15M];
           plotConfig := initial_plotConfig;
           history := numbered <$> seq 100 20 |} ∅.

(** A store reached from the initial one by two selections. *)
Definition store_after_two : Store :=
addToHistory vanke (addToHistory pingan initial_store).

(** The three stroke ranges of the zone scenario of section 8. *)
Definition range_100_110 : Engine.Range := Engine.mkRange 100 110.
Definition range_95_108 : Engine.Range := Engine.mkRange 95 108.
Definition range_102_112 : Engine.Range := Engine.mkRange 102 112.

(** A configuration with the defaults of the quick-start guide. *)
Definition default_config : Engine.Config :=
Engine.mkConfig true Engine.seg_chan Engine.zs_normal true 90 1
  Engine.all_signal_types false.

(** Stages that leave the context as it is; enough to run [feed]. *)
Definition idle_stages (ctx : Engine.AnalysisContext) (bar : Engine.Bar)
  : Engine.AnalysisContext := ctx.

(** A bar whose low is above its high. *)
Definition inverted_bar : Engine.Bar := Engine.mkBar 1 10 9 12 10 1000.
Definition good_bar : Engine.Bar := Engine.mkBar 1 10 12 9 11 1000.

End Examples.

(** ** Concrete inputs for the front end *)

Module Samples.

Import AppStore.

Definition three_stocks : list StockInfo :=
[Examples.pingan; Examples.vanke; Examples.pufa].

(** The search box open on three entries, the last one selected. *)
Definition open_ui : StockSearch.SearchState :=
StockSearch.mkSearchState "" true 2.

Definition closed_ui : StockSearch.SearchState :=
StockSearch.mkSearchState "" false 0.

(** Three hourly candles of two days. *)
Definition candle_0 : KLineUnit := mkKLineUnit 0 "2024-01-02 10:30" 10 12 9 11 1000.
Definition candle_1 : KLineUnit := mkKLineUnit 1 "2024-01-02 11:30" 11 13 10 12 1200.
Definition candle_2 : KLineUnit := mkKLineUnit 2 "2024-01-03 10:30" 12 14 11 13 900.

(** A stroke inside the candles and one that ends outside them. *)
Definition stroke_inside : BiInfo := mkBiInfo 0 0 2 0 2 9 14 true up.
Definition stroke_outside : BiInfo := mkBiInfo 1 2 7 2 7 14 8 false down.

(** A buy point on the second candle and a sell point outside the
    candles. *)
Definition buy_point : BSPInfo := mkBSPInfo 0 1 10 true "1" true.
Definition sell_point : BSPInfo := mkBSPInfo 1 9 14 false "2s" false.

Definition hourly_result : ChanAnalysisResult :=
mkChanAnalysisResult "000001" "PAYH" "60" [candle_0; candle_1; candle_2]
  [stroke_inside; stroke_outside] [] [] [buy_point; sell_point] [] [].





(** A multi-level result with data for the daily level only. *)
Definition daily_only : MultiLevelResult :=
mkMultiLevelResult "000001" "PAYH" {[ Pages.KLineType_label K_DAY := hourly_result ]}.

End Samples.

(** * Properties of the store *)

(** Closed decidable goals are settled by evaluating their decision
    procedure. *)
Ltac by_evaluation := apply (bool_decide_unpack _); vm_compute; exact I.

Import AppStore.

(** ** The search history *)

Section History.

Implicit Types (stock s : StockInfo) (h : list StockInfo) (st : Store).

(** The history after [addToHistory], as a function of the one before. *)
Lemma addToHistory_history stock st :
  history (state (addToHistory stock st))
  = take 20 (stock :: filter (λ s, code s ≠ code stock) (history (state st))).
Proof. reflexivity. Qed.

Lemma codes_sublist h1 h2 :
  h1 `sublist_of` h2 → code <$> h1 `sublist_of` code <$> h2.
Proof.
  induction 1 as [|x l1 l2 _ IH|x l1 l2 _ IH]; cbn.
  - constructor.
  - by apply sublist_skip.
  - by apply sublist_cons.
Qed.

Lemma filter_other_codes_NoDup stock h :
  NoDup (code <$> h) →
  NoDup (code <$> (stock :: filter (λ s, code s ≠ code stock) h)).
Proof.
  intros Hnd. rewrite fmap_cons. apply NoDup_cons. split.
  - intros (s & Hcode & Hin)%list_elem_of_fmap.
    apply list_elem_of_filter in Hin as [Hne _]. congruence.
  - eapply sublist_NoDup; [exact Hnd|].
    apply codes_sublist, sublist_filter.
Qed.

Lemma take_codes_NoDup n h :
  NoDup (code <$> h) → NoDup (code <$> take n h).
Proof.
  intros Hnd. rewrite fmap_take.
  eapply sublist_NoDup; [exact Hnd | apply sublist_take].
Qed.

(** Every call keeps the codes of the history pairwise distinct. *)
Lemma call_history_NoDup (a : Action) st :
  NoDup (code <$> history (state st)) →
  NoDup (code <$> history (state (call a st))).
Proof.
  intros Hnd. destruct a; try exact Hnd.
  - cbn [call]. rewrite addToHistory_history.
    by apply take_codes_NoDup, filter_other_codes_NoDup.
  - cbn. constructor.
Qed.

(** So does every sequence of calls: the histories the application can
    reach from its initial state have pairwise distinct codes. *)
Lemma reachable_history_NoDup (acts : list Action) :
  NoDup (code <$> history (state (calls acts initial_store))).
Proof.
  unfold calls. induction acts as [|a acts IH] using rev_ind.
  - cbn. constructor.
  - rewrite foldl_app. cbn [foldl]. by apply call_history_NoDup.
Qed.

(** On a full history a new stock pushes the oldest entry out, and a
    stock already in it only moves to the front. *)
Example full_history_new_stock :
  history (state (addToHistory Examples.vanke Examples.full_store))
  = Examples.vanke :: (Examples.numbered <$> seq 100 19).
Proof. by vm_compute. Qed.

Example full_history_known_stock :
  history (state (addToHistory (Examples.numbered 107) Examples.full_store))
  = Examples.numbered 107
    :: (Examples.numbered <$> (seq 100 7 ++ seq 108 12)%list).
Proof. by vm_compute. Qed.

(** C8, as stated, fails: [addToHistory] removes only the entries with
    the code of the added stock, so a code that was twice in the prior
    history is still twice in the new one. *)
Lemma addToHistory_keeps_prior_duplicates :
  history (state (addToHistory Examples.vanke Examples.store_with_duplicates))
  = [Examples.vanke; Examples.pingan; Examples.pingan_renamed]
  ∧ ¬ NoDup (code <$> history
       (state (addToHistory Examples.vanke Examples.store_with_duplicates))).
Proof.
  split; [reflexivity|].
  intros Hnd. rewrite addToHistory_history in Hnd.
  apply NoDup_cons in Hnd as [_ Hnd]. apply NoDup_cons in Hnd as [Hnotin _].
  apply Hnotin. cbn. left.
Qed.

(** C8 (amended): for every prior history and every stock, the history
    after [addToHistory] starts with the given stock and has at most 20
    entries; what follows the stock is the first 19 of the prior entries
    with another code, in their prior order; and when the codes of the
    prior history are pairwise distinct, so are those of the new one. *)
Theorem addToHistory_spec stock st :
  head (history (state (addToHistory stock st))) = Some stock
  ∧ (length (history (state (addToHistory stock st))) ≤ 20)%nat
  ∧ tail (history (state (addToHistory stock st)))
    = take 19 (filter (λ s, code s ≠ code stock) (history (state st)))
  ∧ tail (history (state (addToHistory stock st))) `sublist_of` history (state st)
  ∧ (∀ s, s ∈ tail (history (state (addToHistory stock st))) → code s ≠ code stock)
  ∧ (NoDup (code <$> history (state st)) →
     NoDup (code <$> history (state (addToHistory stock st)))).
Proof.
  rewrite addToHistory_history. cbn [take head tail].
  split; [reflexivity|]. split.
  { cbn [length]. rewrite length_take. lia. }
  split; [reflexivity|]. split.
  { etrans; [apply sublist_take | apply sublist_filter]. }
  split.
  { intros s Hin.
    pose proof (elem_of_sublist _ _ _ Hin (sublist_take _ _)) as Hin'.
    by apply list_elem_of_filter in Hin' as [Hne _]. }
  intros Hnd.
  change (NoDup (code <$> take 20
    (stock :: filter (λ s, code s ≠ code stock) (history (state st))))).
  by apply take_codes_NoDup, filter_other_codes_NoDup.
Qed.

(** The amended C8 at a store reached by two selections: selecting the
    older entry again moves it to the front and keeps the codes distinct. *)
Lemma addToHistory_spec_witness :
  NoDup (code <$> history (state (addToHistory Examples.pingan Examples.store_after_two))).
Proof.
  apply (addToHistory_spec Examples.pingan Examples.store_after_two).
  apply (bool_decide_unpack _). vm_compute. exact I.
Defined.

End History.

(** ** The plot configuration *)

Section PlotConfig.

Implicit Types (config : gmap string JsValue) (st : Store).

Lemma lookup_spread (a b : gmap string JsValue) (k : string) :
  spread a b !! k = match b !! k with Some v => Some v | None => a !! k end.
Proof.
  unfold spread. rewrite lookup_union.
  by destruct (b !! k), (a !! k).
Qed.

(** [toggleOption('showBi')] on the initial store: [showBi] becomes
    false, the other five switches stay true. *)
Example toggle_showBi :
  plotConfig (state (toggleOption "showBi" initial_store))
  = list_to_map [("showKline", JBool true); ("showBi", JBool false);
                 ("showSeg", JBool true); ("showZs", JBool true);
                 ("showBsp", JBool true); ("showMacd", JBool true)].
Proof. by vm_compute. Qed.

Lemma toggleOption_lookup (key k : string) st :
  plotConfig (state (toggleOption key st)) !! k
  = if decide (key = k)
    then Some (JBool (negb (truthy (plotConfig (state st) !! key))))
    else plotConfig (state st) !! k.
Proof.
  unfold toggleOption. cbn. rewrite lookup_spread.
  case_decide as Hk.
  - subst k. by rewrite lookup_singleton_eq.
  - by rewrite lookup_singleton_ne.
Qed.

(** Toggling a boolean switch twice restores the configuration. *)
Lemma toggleOption_twice (key : string) (b : bool) st :
  plotConfig (state st) !! key = Some (JBool b) →
  plotConfig (state (toggleOption key (toggleOption key st))) = plotConfig (state st).
Proof.
  intros Hb. apply map_eq. intros k. rewrite !toggleOption_lookup.
  case_decide as Hk; [|done].
  subst k. rewrite decide_True by done. rewrite Hb. cbn. by rewrite negb_involutive.
Qed.

(** C9: [setPlotConfig] gives every key of the partial object its new
    value, leaves every other key of [plotConfig] as it was, and leaves
    every other field of the state as it was. *)
Theorem setPlotConfig_frame config st :
  (∀ k, plotConfig (state (setPlotConfig config st)) !! k
        = match config !! k with
          | Some v => Some v
          | None => plotConfig (state st) !! k
          end)
  ∧ currentStock (state (setPlotConfig config st)) = currentStock (state st)
  ∧ analysisResult (state (setPlotConfig config st)) = analysisResult (state st)
  ∧ multiLevelResult (state (setPlotConfig config st)) = multiLevelResult (state st)
  ∧ isAnalyzing (state (setPlotConfig config st)) = isAnalyzing (state st)
  ∧ klType (state (setPlotConfig config st)) = klType (state st)
  ∧ periods (state (setPlotConfig config st)) = periods (state st)
  ∧ selectedLevels (state (setPlotConfig config st)) = selectedLevels (state st)
  ∧ history (state (setPlotConfig config st)) = history (state st).
Proof.
  split; [|by repeat split].
  intros k. cbn. apply lookup_spread.
Qed.

End PlotConfig.

(** ** Persistence *)

Section Persist.

Implicit Types (a : Action) (acts : list Action) (st : Store).

(** Every call writes the storage entry of the store, and nothing else. *)
Lemma call_storage a st :
  storage (call a st)
  = <[storage_name := mkStorageValue (partialize (state (call a st))) 0]> (storage st).
Proof. by destruct a. Qed.

(** The persisted fields after a call depend on the persisted fields
    before it only. *)
Lemma call_partialize a st1 st2 :
  partialize (state st1) = partialize (state st2) →
  partialize (state (call a st1)) = partialize (state (call a st2)).
Proof.
  intros Heq. injection Heq as Hkl Hper Hsel Hplot Hhist.
  destruct a; cbn; unfold partialize; cbn; congruence.
Qed.

Lemma calls_storage acts st1 st2 :
  partialize (state st1) = partialize (state st2) →
  storage st1 = storage st2 →
  partialize (state (calls acts st1)) = partialize (state (calls acts st2))
  ∧ storage (calls acts st1) = storage (calls acts st2).
Proof.
  revert st1 st2. induction acts as [|a acts IH]; intros st1 st2 Hp Hs.
  - by split.
  - cbn. apply IH.
    + by apply call_partialize.
    + rewrite !call_storage, Hs. by rewrite (call_partialize a st1 st2 Hp).
Qed.

(** C10: after every state update the entry under 'chan-web-storage' is
    the projection of the new state on klType, periods, selectedLevels,
    plotConfig and history, and no other entry of the storage changes;
    what the storage holds after any sequence of updates does not depend
    on currentStock, analysisResult, multiLevelResult or isAnalyzing. *)
Theorem persist_partialize a acts st
    (cs : option StockInfo) (ar : option ChanAnalysisResult)
    (mr : option MultiLevelResult) (ia : bool) :
  storage (call a st) !! "chan-web-storage"
  = Some {| sv_state :=
              {| ps_klType := klType (state (call a st));
                 ps_periods := periods (state (call a st));
                 ps_selectedLevels := selectedLevels (state (call a st));
                 ps_plotConfig := plotConfig (state (call a st));
                 ps_history := history (state (call a st)) |};
            sv_version := 0 |}
  ∧ delete "chan-web-storage" (storage (call a st))
    = delete "chan-web-storage" (storage st)
  ∧ storage (calls acts (mkStore (with_transient cs ar mr ia (state st)) (storage st)))
    = storage (calls acts st).
Proof.
  split; [|split].
  - rewrite call_storage. apply lookup_insert_eq.
  - rewrite call_storage. apply delete_insert_eq.
  - by apply calls_storage.
Qed.

End Persist.

(** * Properties of the engine boundary *)

Import Engine.

(** ** Zone opening *)

Section ZoneOpening.

Implicit Types (r : Range) (first : Z).

(** Three ranges overlap pairwise exactly when their intersection is not
    empty (in one dimension pairwise overlap is enough). *)
Lemma pairwise_overlap_common r1 r2 r3 :
  overlap r1 r2 ∧ overlap r2 r3 ∧ overlap r1 r3
  ↔ (lo (intersection3 r1 r2 r3) <= hi (intersection3 r1 r2 r3))%Z.
Proof. unfold overlap, intersection3. cbn. lia. Qed.

(** The scenario of section 8. *)
Example zone_scenario :
  try_open_zone 0 Examples.range_100_110 Examples.range_95_108 Examples.range_102_112
  = Some (mkZone 102 108 0 2 false None).
Proof. reflexivity. Qed.

(** Ranges that do not overlap pairwise open nothing: the first and the
    third have no common price here. *)
Example zone_scenario_apart :
  try_open_zone 0 (mkRange 100 110) (mkRange 105 120) (mkRange 115 125) = None.
Proof. reflexivity. Qed.

(** C3: a zone opens exactly when the three ranges overlap pairwise, and
    then its bounds are the largest low and the smallest high; the ranges
    [100,110], [95,108], [102,112] open a zone with bounds [102,108]. *)
Theorem zone_opens_on_overlap first r1 r2 r3 :
  (is_Some (try_open_zone first r1 r2 r3)
   ↔ overlap r1 r2 ∧ overlap r2 r3 ∧ overlap r1 r3)
  ∧ (∀ z, try_open_zone first r1 r2 r3 = Some z →
       z_low z = Z.max (Z.max (lo r1) (lo r2)) (lo r3)
       ∧ z_high z = Z.min (Z.min (hi r1) (hi r2)) (hi r3))
  ∧ (z_low <$> try_open_zone first Examples.range_100_110
                 Examples.range_95_108 Examples.range_102_112) = Some 102%Z
  ∧ (z_high <$> try_open_zone first Examples.range_100_110
                  Examples.range_95_108 Examples.range_102_112) = Some 108%Z.
Proof.
  split; [|split; [|by split]].
  - rewrite pairwise_overlap_common. unfold try_open_zone.
    destruct (Z.leb_spec (lo (intersection3 r1 r2 r3)) (hi (intersection3 r1 r2 r3))).
    + split; [done | by eexists].
    + split; [by intros [z Hz] | lia].
  - intros z. unfold try_open_zone.
    destruct (_ <=? _)%Z; [|done]. by intros [= <-].
Qed.

(** C3 at the scenario: the three ranges overlap pairwise, so a zone
    opens. *)
Lemma zone_opens_on_overlap_witness :
  is_Some (try_open_zone 0 Examples.range_100_110 Examples.range_95_108
             Examples.range_102_112).
Proof.
  apply (zone_opens_on_overlap 0 Examples.range_100_110 Examples.range_95_108
           Examples.range_102_112).
  unfold overlap. simpl. lia.
Defined.

End ZoneOpening.

(** ** Feeding bars *)

Section Feed.

Variable stages : AnalysisContext → Bar → AnalysisContext.

Implicit Types (ctx : AnalysisContext) (bar : Bar) (bars : list Bar).

Lemma malformed_iff ctx bar :
  malformed ctx bar = true
  ↔ (high bar < low bar)%Z
    ∨ ∃ prev, ctx_last_bar ctx = Some prev ∧ (timestamp bar <= timestamp prev)%Z.
Proof.
  unfold malformed. rewrite orb_true_iff, Z.ltb_lt.
  destruct (ctx_last_bar ctx) as [prev|].
  - rewrite Z.leb_le. split; intros [H|H]; auto.
    + right. by exists prev.
    + destruct H as (p & [= <-] & Hle). by right.
  - split; intros [H|H]; auto; [done|]. by destruct H as (p & [=] & _).
Qed.

(** A bar that is not malformed is applied: it goes through the stages
    and becomes the last accepted bar. *)
Lemma feed_accepts ctx bar :
  malformed ctx bar = false →
  (feed stages ctx bar).2 = None
  ∧ ctx_last_bar (feed stages ctx bar).1 = Some bar
  ∧ context_lists (feed stages ctx bar).1 = context_lists (stages ctx bar).
Proof. intros Hok. unfold feed. by rewrite Hok. Qed.

(** Whatever is fed, the error is a [DataError] or none. *)
Lemma feed_error ctx bar :
  (feed stages ctx bar).2 = None ∨ (feed stages ctx bar).2 = Some DataError.
Proof. unfold feed. destruct (malformed ctx bar); auto. Qed.

(** C4: a bar with low above high, or with a timestamp that is not
    strictly greater than the previous bar's, is rejected with
    [DataError], and the context after the feed, its five structural
    lists in particular, is the context before it. *)
Theorem malformed_bar_rejected ctx bar :
  (low bar > high bar)%Z
  ∨ (∃ prev, ctx_last_bar ctx = Some prev ∧ ¬ (timestamp bar > timestamp prev)%Z) →
  (feed stages ctx bar).2 = Some DataError
  ∧ context_lists (feed stages ctx bar).1 = context_lists ctx
  ∧ (feed stages ctx bar).1 = ctx.
Proof.
  intros Hbad.
  assert (malformed ctx bar = true) as Hm.
  { apply malformed_iff. destruct Hbad as [H|(prev & Hprev & Hts)].
    - left. lia.
    - right. exists prev. split; [done | lia]. }
  unfold feed. by rewrite Hm.
Qed.

End Feed.

(** C4 on a fresh context: a bar with low 12 and high 9 is rejected and
    the lists stay empty. *)
Lemma malformed_bar_rejected_witness :
  (feed Examples.idle_stages (fresh Examples.default_config) Examples.inverted_bar).2
  = Some DataError
  ∧ context_lists
      (feed Examples.idle_stages (fresh Examples.default_config) Examples.inverted_bar).1
    = context_lists (fresh Examples.default_config)
  ∧ (feed Examples.idle_stages (fresh Examples.default_config) Examples.inverted_bar).1
    = fresh Examples.default_config.
Proof.
  apply (malformed_bar_rejected Examples.idle_stages
           (fresh Examples.default_config) Examples.inverted_bar).
  left. simpl. lia.
Defined.

(** The same bar again is out of order and is rejected as well. *)
Example repeated_bar_rejected :
  feed Examples.idle_stages
    (feed Examples.idle_stages (fresh Examples.default_config) Examples.good_bar).1
    Examples.good_bar
  = ((feed Examples.idle_stages (fresh Examples.default_config) Examples.good_bar).1,
     Some DataError).
Proof. reflexivity. Qed.

(** * Further properties of the front end *)

Import Fields.

(** ** The history as a most-recently-used list *)

Section HistoryOrder.

Implicit Types (stock s : StockInfo) (h l : list StockInfo) (st : Store).

Lemma filter_take_filter (P : StockInfo → Prop) `{!∀ x, Decision (P x)} n h :
  filter P (take n (filter P h)) = take n (filter P h).
Proof.
  revert n. induction h as [|x h IH]; intros n.
  - by destruct n.
  - rewrite filter_cons. case_decide as HP; [|apply IH].
    destruct n as [|n]; [done|]. cbn [take].
    rewrite filter_cons_True by done. by rewrite IH.
Qed.

(** X1: selecting the same stock twice in a row is selecting it once. *)
Theorem addToHistory_idempotent stock st :
  addToHistory stock (addToHistory stock st) = addToHistory stock st.
Proof.
  unfold addToHistory, set_state. cbn.
  rewrite insert_insert_eq.
  rewrite (decide_False (P := code stock ≠ code stock)) by (intros H; by apply H).
  rewrite filter_take_filter, take_take. reflexivity.
Qed.

Lemma history_again stock st (h0 : list StockInfo) :
  history (state st) = take 20 (stock :: filter (λ s, code s ≠ code stock) h0) →
  history (state (addToHistory stock st)) = history (state st).
Proof.
  intros Hh. rewrite addToHistory_history, Hh. cbn [take].
  rewrite filter_cons_False by (intros H; by apply H).
  by rewrite filter_take_filter, take_take.
Qed.

Lemma filter_code_absent (c : string) h :
  c ∉ code <$> h → filter (λ s, code s ≠ c) h = h.
Proof.
  induction h as [|x h IH]; [done|].
  rewrite fmap_cons, not_elem_of_cons. intros [Hx Hh].
  rewrite filter_cons_True by congruence. by rewrite IH.
Qed.

Lemma take_filter_code (c : string) n h :
  NoDup (code <$> h) →
  take n (filter (λ s, code s ≠ c) (take (S n) h))
  = take n (filter (λ s, code s ≠ c) h).
Proof.
  revert n. induction h as [|x h IH]; intros n Hnd; [done|].
  rewrite fmap_cons in Hnd. apply NoDup_cons in Hnd as [Hx Hnd].
  cbn [take]. rewrite !filter_cons. case_decide as Hc.
  - destruct n as [|n]; [done|]. cbn [take]. by rewrite IH.
  - assert (code x = c) as <- by (destruct (decide (code x = c)); [done | contradiction]).
    rewrite (filter_code_absent (code x) h) by done.
    rewrite (filter_code_absent (code x) (take n h)).
    + by rewrite take_take, Nat.min_id.
    + intros Hin. apply Hx. rewrite fmap_take in Hin.
      eapply elem_of_sublist; [exact Hin | apply sublist_take].
Qed.

Lemma filter_not_in_nil h :
  filter (λ s, code s ∉ code <$> ([] : list StockInfo)) h = h.
Proof.
  induction h as [|y t IHt]; [done|].
  rewrite filter_cons_True by apply not_elem_of_nil. by rewrite IHt.
Qed.

Lemma filter_not_in_snoc (x : StockInfo) l h :
  filter (λ s, code s ≠ code x) (filter (λ s, code s ∉ code <$> l) h)
  = filter (λ s, code s ∉ code <$> (l ++ [x])%list) h.
Proof.
  rewrite list_filter_filter. apply list_filter_iff. intros s.
  rewrite fmap_app, not_elem_of_app. cbn.
  rewrite list_elem_of_singleton. tauto.
Qed.

Lemma history_after_additions_aux l st :
  NoDup (code <$> l) → NoDup (code <$> history (state st)) →
  (l = [] ∧ history (state (calls (AddToHistory <$> l) st)) = history (state st)
   ∨ history (state (calls (AddToHistory <$> l) st))
     = take 20 (reverse l ++ filter (λ s, code s ∉ code <$> l) (history (state st)))%list)
  ∧ NoDup (code <$> (reverse l ++ filter (λ s, code s ∉ code <$> l) (history (state st)))%list).
Proof.
  intros Hl Hh. induction l as [|x l IH] using rev_ind.
  - cbn [fmap list_fmap app calls foldl]; rewrite reverse_nil; cbn [app].
    rewrite filter_not_in_nil. split; [by left | done].
  - rewrite fmap_app in Hl. apply NoDup_app in Hl as (Hl & Hx & _).
    destruct (IH Hl) as [Hhist Hnd]. clear IH.
    assert (code x ∉ code <$> l) as Hxl.
    { intros Hin. apply (Hx _ Hin). cbn. left. }
    assert (filter (λ s, code s ≠ code x)
              (reverse l ++ filter (λ s, code s ∉ code <$> l) (history (state st)))%list
            = (reverse l ++ filter (λ s, code s ∉ code <$> (l ++ [x])%list)
                          (history (state st)))%list) as Hfilter.
    { rewrite filter_app, filter_not_in_snoc. f_equal.
      apply filter_code_absent. by rewrite fmap_reverse, elem_of_reverse. }
    rewrite reverse_snoc. split.
    + right. unfold calls. rewrite fmap_app, foldl_app. cbn [fmap list_fmap foldl call].
      rewrite addToHistory_history. fold (calls (AddToHistory <$> l) st).
      cbn [take app]. f_equal. rewrite <- Hfilter.
      destruct Hhist as [[-> ->] | ->].
      * rewrite reverse_nil. cbn [app]. by rewrite filter_not_in_nil.
      * by apply take_filter_code.
    + cbn [app]. rewrite fmap_cons. apply NoDup_cons. split.
      * rewrite <- Hfilter. intros (s & Hs & Hin)%list_elem_of_fmap.
        apply list_elem_of_filter in Hin as [Hne _]. congruence.
      * rewrite <- Hfilter. eapply sublist_NoDup; [exact Hnd|].
        apply codes_sublist, sublist_filter.
Qed.

(** X2: stocks selected one after the other end up in front of the history,
    the latest first, followed by the earlier entries with other codes;
    the whole is cut at 20. *)
Theorem history_most_recent_first l st :
  l ≠ [] →
  NoDup (code <$> l) → NoDup (code <$> history (state st)) →
  history (state (calls (AddToHistory <$> l) st))
  = take 20 (reverse l
             ++ filter (λ s, code s ∉ code <$> l) (history (state st)))%list.
Proof.
  intros Hne Hl Hh.
  by destruct (history_after_additions_aux l st Hl Hh) as [[[? _] | ?] _].
Qed.

Lemma call_history_length (a : Action) st :
  (length (history (state st)) ≤ 20)%nat →
  (length (history (state (call a st))) ≤ 20)%nat.
Proof.
  intros Hlen. destruct a; try exact Hlen.
  - cbn [call]. rewrite addToHistory_history, length_take. lia.
  - cbn. lia.
Qed.

(** X3: from a history of at most 20 entries with pairwise distinct codes,
    every sequence of calls leads to such a history again. *)
Theorem history_invariant (acts : list Action) st :
  (length (history (state st)) ≤ 20)%nat →
  NoDup (code <$> history (state st)) →
  (length (history (state (calls acts st))) ≤ 20)%nat
  ∧ NoDup (code <$> history (state (calls acts st))).
Proof.
  revert st. induction acts as [|a acts IH]; intros st Hlen Hnd; [done|].
  cbn. apply IH; [by apply call_history_length | by apply call_history_NoDup].
Qed.

End HistoryOrder.

(** ** How the calls of the store compose *)

Ltac unfold_calls :=
  cbn [call];
  unfold setCurrentStock, setAnalysisResult, setMultiLevelResult, setIsAnalyzing,
    setKlType, setPeriods, setSelectedLevels, setPlotConfig, addToHistory,
    clearHistory, set_state;
  cbn [state storage].

Section StoreAlgebra.
Implicit Types (a b : Action) (st : Store) (config : gmap string JsValue).

(** X4: calls that write different fields can be made in either order. *)
Theorem calls_commute a b st :
  field_of a ≠ field_of b →
  call a (call b st) = call b (call a st).
Proof.
  intros Hne.
  destruct a, b; try (exfalso; by apply Hne);
    unfold_calls; by rewrite !insert_insert_eq.
Qed.

(** X5: a setter that does not read the state makes an earlier call on its
    field irrelevant. *)
Theorem last_write_wins a b st :
  overwrites a = true → field_of a = field_of b →
  call a (call b st) = call a st.
Proof.
  intros Ha Hf.
  destruct a; try discriminate Ha; destruct b; try discriminate Hf;
    unfold_calls; by rewrite insert_insert_eq.
Qed.

(** X6: two partial updates of the plot configuration in a row are one
    update by their spread, and an empty update changes no field. *)
Theorem setPlotConfig_compose config1 config2 st :
  setPlotConfig config2 (setPlotConfig config1 st)
  = setPlotConfig (spread config1 config2) st
  ∧ state (setPlotConfig ∅ st) = state st.
Proof.
  split.
  - unfold setPlotConfig, set_state, spread. cbn.
    rewrite insert_insert_eq. by rewrite (assoc_L (∪)).
  - destruct st as [s sto]. destruct s.
    unfold setPlotConfig, set_state, spread, assign. cbn.
    by rewrite (left_id_L ∅ (∪)).
Qed.

(** X7: toggling a boolean switch twice gives the state back. *)
Theorem toggleOption_involutive (key : string) (b : bool) st :
  plotConfig (state st) !! key = Some (JBool b) →
  state (toggleOption key (toggleOption key st)) = state st.
Proof.
  intros Hb. pose proof (toggleOption_twice key b st Hb) as Hcfg.
  revert Hcfg. destruct st as [s sto]. destruct s.
  unfold toggleOption, setPlotConfig, set_state, assign. cbn.
  by intros ->.
Qed.

Lemma toggleOption_typed (key : string) st :
  key ∈ PlotConfig_fields →
  PlotConfig_typed (plotConfig (state st)) →
  PlotConfig_typed (plotConfig (state (toggleOption key st))).
Proof.
  intros Hkey Htyped k. rewrite toggleOption_lookup.
  specialize (Htyped k). case_decide as Hk.
  - case_decide; [by eexists | done].
  - case_decide; [by subst | done].
Qed.

Lemma initial_plotConfig_typed : PlotConfig_typed initial_plotConfig.
Proof.
  intros k. case_decide as Hk.
  - unfold PlotConfig_fields in Hk.
    repeat (apply elem_of_cons in Hk as [-> | Hk]; [by eexists|]).
    by apply elem_of_nil in Hk.
  - unfold initial_plotConfig. apply not_elem_of_list_to_map_1.
    rewrite <- list_fmap_compose. by rewrite list_fmap_id.
Qed.

(** X8: whatever switches of the panel are toggled, in whatever order, the
    plot configuration keeps its six boolean switches and gets no other
    key. *)
Theorem toggles_keep_PlotConfig (keys : list string) st :
  Forall (λ key, key ∈ PlotConfig_fields) keys →
  PlotConfig_typed (plotConfig (state st)) →
  PlotConfig_typed (plotConfig (state (foldr toggleOption st keys))).
Proof.
  intros Hkeys Htyped. induction Hkeys as [|key keys Hkey _ IH]; [done|].
  cbn. by apply toggleOption_typed.
Qed.

End StoreAlgebra.

(** ** The search box *)

Import StockSearch.

Section Keyboard.

Variable onSelect : option (StockInfo → Store → Store).

Implicit Types (dl : list StockInfo) (ui : SearchState) (st : Store) (key : Key).

Lemma js_index_Some {A : Type} (l : list A) (i : Z) (x : A) :
  Js.index l i = Some x → (0 <= i < Z.of_nat (length l))%Z.
Proof.
  unfold Js.index. destruct (Z.ltb_spec i 0); [done|].
  intros Hx%lookup_lt_Some. lia.
Qed.

Lemma js_index_in_range {A : Type} (l : list A) (i : Z) :
  (0 <= i < Z.of_nat (length l))%Z → is_Some (Js.index l i).
Proof.
  intros Hi. unfold Js.index. destruct (Z.ltb_spec i 0); [lia|].
  apply lookup_lt_is_Some. lia.
Qed.

Lemma arrow_down ui st dl :
  isOpen ui = true → dl ≠ [] →
  handleKeyDown onSelect dl ArrowDown ui st
  = ({| keyword := keyword ui; isOpen := isOpen ui;
        selectedIndex := if (selectedIndex ui <? Z.of_nat (length dl) - 1)%Z
                         then (selectedIndex ui + 1)%Z else 0%Z |}, st).
Proof.
  intros Hopen Hdl. unfold handleKeyDown. rewrite Hopen.
  by destruct dl.
Qed.

Lemma arrow_up ui st dl :
  isOpen ui = true → dl ≠ [] →
  handleKeyDown onSelect dl ArrowUp ui st
  = ({| keyword := keyword ui; isOpen := isOpen ui;
        selectedIndex := if (0 <? selectedIndex ui)%Z
                         then (selectedIndex ui - 1)%Z
                         else (Z.of_nat (length dl) - 1)%Z |}, st).
Proof.
  intros Hopen Hdl. unfold handleKeyDown. rewrite Hopen.
  by destruct dl.
Qed.

Lemma arrows_in_range key ui st dl :
  key = ArrowDown ∨ key = ArrowUp →
  isOpen ui = true → dl ≠ [] →
  (0 <= selectedIndex ui < Z.of_nat (length dl))%Z →
  (0 <= selectedIndex (handleKeyDown onSelect dl key ui st).1
      < Z.of_nat (length dl))%Z
  ∧ keyword (handleKeyDown onSelect dl key ui st).1 = keyword ui
  ∧ isOpen (handleKeyDown onSelect dl key ui st).1 = true
  ∧ (handleKeyDown onSelect dl key ui st).2 = st.
Proof.
  intros [-> | ->] Hopen Hdl Hi.
  - rewrite arrow_down by done. cbn.
    destruct (Z.ltb_spec (selectedIndex ui) (Z.of_nat (length dl) - 1)); repeat split; try done; lia.
  - rewrite arrow_up by done. cbn.
    destruct (Z.ltb_spec 0 (selectedIndex ui)); repeat split; try done; lia.
Qed.

(** X9: the arrow keys move the selection inside the list on display and
    touch nothing else: the store, the keyword and the open dropdown
    stay as they are. *)
Theorem arrows_stay_in_range key ui st dl :
  key = ArrowDown ∨ key = ArrowUp →
  isOpen ui = true → dl ≠ [] →
  (0 <= selectedIndex ui < Z.of_nat (length dl))%Z →
  (0 <= selectedIndex (handleKeyDown onSelect dl key ui st).1
      < Z.of_nat (length dl))%Z
  ∧ keyword (handleKeyDown onSelect dl key ui st).1 = keyword ui
  ∧ isOpen (handleKeyDown onSelect dl key ui st).1 = true
  ∧ (handleKeyDown onSelect dl key ui st).2 = st.
Proof. apply arrows_in_range. Qed.

(** X10: ArrowUp undoes ArrowDown and ArrowDown undoes ArrowUp, also across
    the ends of the list. *)
Theorem arrows_inverse ui st dl :
  isOpen ui = true → dl ≠ [] →
  (0 <= selectedIndex ui < Z.of_nat (length dl))%Z →
  (handleKeyDown onSelect dl ArrowUp
     (handleKeyDown onSelect dl ArrowDown ui st).1 st).1 = ui
  ∧ (handleKeyDown onSelect dl ArrowDown
       (handleKeyDown onSelect dl ArrowUp ui st).1 st).1 = ui.
Proof.
  intros Hopen Hdl Hi. rewrite arrow_down, arrow_up by done. cbn [fst].
  rewrite arrow_up, arrow_down by done. cbn.
  destruct ui as [kw op i]. cbn in *. split; f_equal.
  - destruct (Z.ltb_spec i (Z.of_nat (length dl) - 1)).
    + destruct (Z.ltb_spec 0 (i + 1)); lia.
    + destruct (Z.ltb_spec 0 0); lia.
  - destruct (Z.ltb_spec 0 i).
    + destruct (Z.ltb_spec (i - 1) (Z.of_nat (length dl) - 1)); lia.
    + destruct (Z.ltb_spec (Z.of_nat (length dl) - 1) (Z.of_nat (length dl) - 1)); lia.
Qed.

Lemma press_arrows_aux key n ui st dl :
  key = ArrowDown ∨ key = ArrowUp →
  isOpen ui = true → dl ≠ [] →
  (0 <= selectedIndex ui < Z.of_nat (length dl))%Z →
  press onSelect dl key n ui st
  = ({| keyword := keyword ui; isOpen := isOpen ui;
        selectedIndex :=
          ((selectedIndex ui
            + match key with ArrowUp => - Z.of_nat n | _ => Z.of_nat n end)
           mod Z.of_nat (length dl))%Z |}, st).
Proof.
  intros Hkey Hopen Hdl. revert ui Hopen.
  induction n as [|n IH]; intros ui Hopen Hi.
  - cbn [press]. destruct ui as [kw op i]. cbn in *. f_equal. f_equal.
    destruct Hkey as [-> | ->]; rewrite Z.add_0_r, Z.mod_small; lia.
  - cbn [press].
    destruct (arrows_in_range key ui st dl Hkey Hopen Hdl Hi)
      as (Hi' & Hkw & Hopen' & Hst).
    rewrite Hst, (IH _ Hopen' Hi'), Hkw, Hopen'. rewrite Hopen. f_equal. f_equal.
    destruct Hkey as [-> | ->].
    + rewrite arrow_down by done. cbn [fst selectedIndex].
      destruct (Z.ltb_spec (selectedIndex ui) (Z.of_nat (length dl) - 1)).
      * f_equal. lia.
      * replace (selectedIndex ui) with (Z.of_nat (length dl) - 1)%Z by lia.
        replace (Z.of_nat (length dl) - 1 + Z.of_nat (S n))%Z
          with (Z.of_nat n + 1 * Z.of_nat (length dl))%Z by lia.
        rewrite Z.mod_add by lia. f_equal.
    + rewrite arrow_up by done. cbn [fst selectedIndex].
      destruct (Z.ltb_spec 0 (selectedIndex ui)).
      * f_equal. lia.
      * replace (selectedIndex ui) with 0%Z by lia.
        replace (Z.of_nat (length dl) - 1 + - Z.of_nat n)%Z
          with (0 + - Z.of_nat (S n) + 1 * Z.of_nat (length dl))%Z by lia.
        by rewrite Z.mod_add by lia.
Qed.

(** X11: [n] presses of ArrowDown move the selection [n] places forward
    around the list, [n] presses of ArrowUp [n] places backward; as many
    presses as the list has entries bring it back. *)
Theorem arrows_cycle n ui st dl :
  isOpen ui = true → dl ≠ [] →
  (0 <= selectedIndex ui < Z.of_nat (length dl))%Z →
  selectedIndex (press onSelect dl ArrowDown n ui st).1
  = ((selectedIndex ui + Z.of_nat n) mod Z.of_nat (length dl))%Z
  ∧ selectedIndex (press onSelect dl ArrowUp n ui st).1
    = ((selectedIndex ui - Z.of_nat n) mod Z.of_nat (length dl))%Z
  ∧ (press onSelect dl ArrowDown (length dl) ui st).1 = ui
  ∧ (press onSelect dl ArrowUp (length dl) ui st).1 = ui.
Proof.
  intros Hopen Hdl Hi.
  rewrite !press_arrows_aux by auto. cbn [fst selectedIndex].
  assert (Z.of_nat (length dl) ≠ 0)%Z as Hlen by (destruct dl; [done | cbn; lia]).
  split; [done|]. split; [done|].
  destruct ui as [kw op i]. cbn in *. split; f_equal.
  - replace (i + Z.of_nat (length dl))%Z with (i + 1 * Z.of_nat (length dl))%Z by lia.
    rewrite Z.mod_add by done. apply Z.mod_small. lia.
  - replace (i + - Z.of_nat (length dl))%Z with (i + (-1) * Z.of_nat (length dl))%Z by lia.
    rewrite Z.mod_add by done. apply Z.mod_small. lia.
Qed.

End Keyboard.

Section Selection.

Implicit Types (dl : list StockInfo) (ui : SearchState) (st : Store) (key : Key)
  (stock : StockInfo) (onSelect : option (StockInfo → Store → Store)).

Lemma handleSelect_store onSelect stock ui st :
  onSelect = None ∨ onSelect = Some Pages.handleSelectStock →
  currentStock (state (handleSelect onSelect stock ui st).2) = Some stock
  ∧ history (state (handleSelect onSelect stock ui st).2)
    = take 20 (stock :: filter (λ s, code s ≠ code stock) (history (state st))).
Proof. by intros [-> | ->]. Qed.

(** X12: Enter on an open dropdown whose selection points at an entry selects
    that entry: it becomes the current stock and the head of the history,
    the dropdown closes and the input shows its code and name. (Where
    the selection index is afterwards is left to the effect that resets
    it when the list on display changes.) *)
Theorem enter_selects onSelect dl ui st stock :
  onSelect = None ∨ onSelect = Some Pages.handleSelectStock →
  isOpen ui = true →
  Js.index dl (selectedIndex ui) = Some stock →
  currentStock (state (handleKeyDown onSelect dl Enter ui st).2) = Some stock
  ∧ history (state (handleKeyDown onSelect dl Enter ui st).2)
    = take 20 (stock :: filter (λ s, code s ≠ code stock) (history (state st)))
  ∧ isOpen (handleKeyDown onSelect dl Enter ui st).1 = false
  ∧ keyword (handleKeyDown onSelect dl Enter ui st).1
    = code stock ++ "  " ++ name stock.
Proof.
  intros Hon Hopen Hidx. unfold handleKeyDown. rewrite Hopen.
  destruct dl as [|x dl]; [by destruct (selectedIndex ui) |].
  cbn [negb orb length Nat.eqb]. rewrite Hidx.
  destruct (handleSelect_store onSelect stock ui st Hon) as [Hcur Hhist].
  by rewrite Hcur, Hhist.
Qed.

(** X13: no key does anything while the dropdown is closed or the list on
    display is empty, and Enter does nothing when the selection points
    outside the list. *)
Theorem keys_ignored onSelect dl key ui st :
  isOpen ui = false ∨ dl = []
  ∨ (key = Enter ∧ ¬ (0 <= selectedIndex ui < Z.of_nat (length dl))%Z) →
  handleKeyDown onSelect dl key ui st = (ui, st).
Proof.
  intros [Hclosed | [-> | [-> Hout]]]; unfold handleKeyDown.
  - by rewrite Hclosed.
  - by rewrite orb_true_r.
  - destruct (negb (isOpen ui) || (length dl =? 0)%nat); [done|].
    destruct (Js.index dl (selectedIndex ui)) as [stock|] eqn:Hidx; [|done].
    exfalso. apply Hout. unfold Js.index in Hidx.
    destruct (Z.ltb_spec (selectedIndex ui) 0); [done|].
    apply lookup_lt_Some in Hidx. lia.
Qed.

(** X14: after a selection exactly one entry of the history carries the
    "current" badge, and it is the first one. *)
Theorem one_current_badge onSelect stock ui st :
  onSelect = None ∨ onSelect = Some Pages.handleSelectStock →
  filter (λ s, is_current (currentStock (state (handleSelect onSelect stock ui st).2)) s)
         (history (state (handleSelect onSelect stock ui st).2))
  = [stock].
Proof.
  intros Hon. destruct (handleSelect_store onSelect stock ui st Hon) as [-> ->].
  cbn [take is_current]. rewrite filter_cons_True by (by apply bool_decide_pack).
  f_equal.
  assert (Forall (λ s, code s ≠ code stock)
            (take 19 (filter (λ s, code s ≠ code stock) (history (state st))))) as Hall.
  { apply Forall_forall. intros s Hin.
    pose proof (elem_of_sublist _ _ _ Hin (sublist_take _ _)) as Hin'.
    by apply list_elem_of_filter in Hin' as [Hne _]. }
  induction Hall as [|s t Hs _ IH]; [done|].
  rewrite filter_cons_False; [exact IH|].
  intros Hcur%bool_decide_unpack. by apply Hs.
Qed.

(** X15: with an empty keyword the dropdown lists the history; after a
    selection the keyword is not empty, so what it lists is the search
    result, nothing while there is none. *)
Theorem displayList_after_select onSelect stock ui st
    (searchResults : option (list StockInfo)) (h : list StockInfo) :
  displayList "" searchResults h = h
  ∧ displayList (keyword (handleSelect onSelect stock ui st).1) searchResults h
    = default [] searchResults
  ∧ displayList (keyword (handleSelect onSelect stock ui st).1) None h = [].
Proof.
  split; [done|].
  assert (∀ sr, displayList (keyword (handleSelect onSelect stock ui st).1) sr h
                = default [] sr) as Hd.
  { intros sr. unfold displayList. cbn [handleSelect fst keyword].
    by destruct (code stock). }
  split; [apply Hd | apply (Hd None)].
Qed.

End Selection.

(** ** The charts *)

Import Charts.

Section Dates.

Lemma before_space_space_free (s : string) : space_free (Js.before_space s).
Proof.
  unfold space_free. induction s as [|c s IH]; cbn.
  - apply not_elem_of_nil.
  - destruct (Ascii.eqb_spec c " "%char) as [->|Hc]; cbn.
    + apply not_elem_of_nil.
    + apply not_elem_of_cons. split; [congruence | exact IH].
Qed.

Lemma before_space_date_time (d t : string) :
  space_free d → Js.before_space (d ++ " " ++ t) = d.
Proof.
  unfold space_free. induction d as [|c d IH]; cbn; [done|].
  intros [Hc Hd]%not_elem_of_cons.
  change (Js.before_space (String c d +:+ " " +:+ t))
    with (if Ascii.eqb c " "%char then EmptyString
          else String c (Js.before_space (d +:+ " " +:+ t))).
  destruct (Ascii.eqb_spec c " "%char) as [->|_]; [done|].
  f_equal. by apply IH.
Qed.

Lemma before_space_id (s : string) : space_free s → Js.before_space s = s.
Proof.
  unfold space_free. induction s as [|c s IH]; cbn; [done|].
  intros [Hc Hs]%not_elem_of_cons.
  destruct (Ascii.eqb_spec c " "%char) as [->|_]; [done|].
  f_equal. by apply IH.
Qed.

(** X16: the time a candle gets on the chart has no space in it; it is the
    whole timestamp when that has no space, and the date when the
    timestamp is a date, a space and a time of day, so that two candles
    of the same day get the same time. *)
Theorem kline_date_drops_time (kl kl1 kl2 : KLineUnit) (d t1 t2 : string) :
  space_free (kline_date kl)
  ∧ (space_free (kl_time kl) → kline_date kl = kl_time kl)
  ∧ (space_free d →
     kl_time kl1 = d ++ " " ++ t1 →
     kl_time kl2 = d ++ " " ++ t2 →
     kline_date kl1 = d ∧ c_time (candle_of kl1) = c_time (candle_of kl2)).
Proof.
  split; [apply before_space_space_free|]. split; [apply before_space_id|].
  intros Hd H1 H2. unfold candle_of, kline_date. cbn. rewrite H1, H2.
  by rewrite !before_space_date_time.
Qed.

End Dates.

Section Lines.

Implicit Types (klines : list KLineUnit) (data : ChanAnalysisResult).

Lemma foldl_push {A B : Type} (f : A → list B) (l : list A) (acc : list B) :
  foldl (λ acc x, (acc ++ f x)%list) acc l = (acc ++ (l ≫= f))%list.
Proof.
  revert acc. induction l as [|x l IH]; intros acc; cbn.
  - by rewrite app_nil_r.
  - by rewrite IH, <- app_assoc.
Qed.

Lemma kline_at_is_Some klines (x : number) :
  is_Some (kline_at klines x) ↔ (0 <= x < Z.of_nat (length klines))%Z.
Proof.
  unfold kline_at, Js.index, Js.floor. destruct (Z.ltb_spec x 0).
  - split; [by intros [? ?] | lia].
  - rewrite lookup_lt_is_Some. lia.
Qed.

Lemma line_points_drawable klines (bx ex by_ ey : number) :
  length (line_points klines bx ex by_ ey)
  = (if drawable klines bx ex then 2 else 0)%nat
  ∧ l_value <$> line_points klines bx ex by_ ey
    = if drawable klines bx ex then [by_; ey] else [].
Proof.
  unfold line_points, drawable.
  pose proof (kline_at_is_Some klines bx) as Hb.
  pose proof (kline_at_is_Some klines ex) as He.
  destruct (kline_at klines bx) as [b|].
  - rewrite (bool_decide_eq_true_2 _ (proj1 Hb ltac:(by eexists))).
    destruct (kline_at klines ex) as [e|].
    + by rewrite (bool_decide_eq_true_2 _ (proj1 He ltac:(by eexists))).
    + rewrite bool_decide_eq_false_2; [done|].
      intros [? ?]%He. done.
  - rewrite bool_decide_eq_false_2; [done|].
    intros [? ?]%Hb. done.
Qed.

Lemma bind_line_points {A : Type} klines (l : list A)
    (bx ex by_ ey : A → number) :
  length (l ≫= (λ x, line_points klines (bx x) (ex x) (by_ x) (ey x)))
  = (2 * length (filter (λ x, drawable klines (bx x) (ex x)) l))%nat
  ∧ l_value <$> (l ≫= (λ x, line_points klines (bx x) (ex x) (by_ x) (ey x)))
    = filter (λ x, drawable klines (bx x) (ex x)) l ≫= (λ x, [by_ x; ey x]).
Proof.
  induction l as [|x l [IHlen IHval]]; [done|].
  rewrite bind_cons, length_app, fmap_app, IHlen, IHval, filter_cons.
  destruct (line_points_drawable klines (bx x) (ex x) (by_ x) (ey x)) as [-> ->].
  destruct (drawable klines (bx x) (ex x)) eqn:Hd.
  - rewrite decide_True by exact I. rewrite bind_cons. cbn [length]. split; [lia | done].
  - rewrite decide_False by (intros []). done.
Qed.

(** X17: the stroke line and the segment line get two points for every stroke
    or segment whose two end candles exist, its begin and end price in
    this order, and nothing for the others. *)
Theorem line_data_drawable data :
  length (biData data)
  = (2 * length (filter (λ bi, drawable (klines data) (bi_begin_x bi) (bi_end_x bi))
                   (bi_list data)))%nat
  ∧ l_value <$> biData data
    = filter (λ bi, drawable (klines data) (bi_begin_x bi) (bi_end_x bi))
        (bi_list data) ≫= (λ bi, [bi_begin_y bi; bi_end_y bi])
  ∧ length (segData data)
    = (2 * length (filter (λ seg, drawable (klines data) (seg_begin_x seg) (seg_end_x seg))
                     (seg_list data)))%nat
  ∧ l_value <$> segData data
    = filter (λ seg, drawable (klines data) (seg_begin_x seg) (seg_end_x seg))
        (seg_list data) ≫= (λ seg, [seg_begin_y seg; seg_end_y seg]).
Proof.
  unfold biData, segData. rewrite !foldl_push. cbn [app].
  destruct (bind_line_points (klines data) (bi_list data)
              bi_begin_x bi_end_x bi_begin_y bi_end_y) as [H1 H2].
  destruct (bind_line_points (klines data) (seg_list data)
              seg_begin_x seg_end_x seg_begin_y seg_end_y) as [H3 H4].
  done.
Qed.











End Lines.

(** ** The pages *)

Import Pages.

Section PagesFacts.

Implicit Types (st : Store) (data : ChanAnalysisResult) (stock : StockInfo).

Lemma slice_last_suffix {A : Type} (n : nat) (l : list A) :
  Js.slice_last n l `suffix_of` l
  ∧ (n ≠ 0%nat → length (Js.slice_last n l) = min n (length l)).
Proof.
  unfold Js.slice_last. destruct n as [|n].
  - split; [done | congruence].
  - split; [apply suffix_drop | intros _; rewrite length_drop; lia].
Qed.

(** X20: the summaries list the latest buy/sell points, in order: the last
    three on the multi-level page, the last ten on the single-level one,
    and all of them when there are fewer. *)
Theorem recent_signals data :
  recentBsp data `suffix_of` bsp_list data
  ∧ length (recentBsp data) = min 3 (length (bsp_list data))
  ∧ summaryBsp data `suffix_of` bsp_list data
  ∧ length (summaryBsp data) = min 10 (length (bsp_list data))
  ∧ ((length (bsp_list data) ≤ 3)%nat → recentBsp data = bsp_list data)
  ∧ ((length (bsp_list data) ≤ 10)%nat → summaryBsp data = bsp_list data).
Proof.
  unfold recentBsp, summaryBsp.
  destruct (slice_last_suffix 3 (bsp_list data)) as [H1 H2].
  destruct (slice_last_suffix 10 (bsp_list data)) as [H3 H4].
  split; [done|]. split; [by apply H2|]. split; [done|]. split; [by apply H4|].
  split; intros Hlen; unfold Js.slice_last.
  - replace (length (bsp_list data) - 3)%nat with 0%nat by lia. done.
  - replace (length (bsp_list data) - 10)%nat with 0%nat by lia. done.
Qed.

Lemma KLineType_label_inj : Inj (=) (=) KLineType_label.
Proof. intros t1 t2 Heq. destruct t1, t2; (done || discriminate Heq). Qed.

(** X21: the multi-level page draws one chart for each selected level the
    result has data for, in the order of the selection, and silently
    none for the others; the height of every chart follows the number of
    selected levels, not the number of charts drawn. *)
Theorem level_charts_selected (selectedLevels : list KLineType)
    (result : MultiLevelResult) (level : KLineType) (data : ChanAnalysisResult) (h : Z) :
  (λ c, c.1.1) <$> level_charts selectedLevels result
  = filter (λ level, is_Some (levels result !! KLineType_label level)) selectedLevels
  ∧ ((level, data, h) ∈ level_charts selectedLevels result
     ↔ level ∈ selectedLevels
       ∧ levels result !! KLineType_label level = Some data
       ∧ h = chartHeight selectedLevels)
  ∧ ((∀ l, l ∈ selectedLevels → is_Some (levels result !! KLineType_label l)) →
     (λ c, c.1.1) <$> level_charts selectedLevels result = selectedLevels).
Proof.
  unfold level_charts. generalize (chartHeight selectedLevels) as height. intros height.
  assert (∀ sel : list KLineType,
    (λ c : KLineType * ChanAnalysisResult * Z, c.1.1) <$>
      omap (λ level0, match levels result !! KLineType_label level0 with
                      | Some data0 => Some (level0, data0, height)
                      | None => None
                      end) sel
    = filter (λ level0, is_Some (levels result !! KLineType_label level0)) sel) as Hfilter.
  { induction sel as [|l sel IH]; [done|].
    rewrite filter_cons.
    destruct (levels result !! KLineType_label l) as [d|] eqn:Hd.
    - rewrite decide_True by (by eexists). simpl. rewrite Hd. simpl.
      f_equal. exact IH.
    - rewrite decide_False by (by intros [? ?]). simpl. rewrite Hd. exact IH. }
  split; [apply Hfilter|]. split.
  - rewrite list_elem_of_omap. split.
    + intros (l & Hl & Hsome).
      destruct (levels result !! KLineType_label l) as [d|] eqn:Hd; [|done].
      injection Hsome as -> -> ->. done.
    + intros (Hl & Hd & ->). exists level. by rewrite Hd.
  - intros Hall. rewrite Hfilter.
    induction selectedLevels as [|l sel IH]; [done|].
    rewrite filter_cons_True by (apply Hall; left).
    f_equal. apply IH. intros l' Hl'. apply Hall. by right.
Qed.

(** X22: choosing a preset sets [selectedPreset] to the index in every case.
    For an index with a preset it then sets the selected levels to the
    levels of that preset, two or three different ones, so that the
    charts are 400 or 300 high; for an index without a preset it throws
    and leaves the store as it is. *)
Theorem preset_change_levels (index : Z) st :
  (handlePresetChange index st).1.1 = index
  ∧ match (handlePresetChange index st).2 with
    | None =>
        (0 <= index < 6)%Z
        ∧ (preset_levels <$> PRESET_LEVELS) !! Z.to_nat index
          = Some (selectedLevels (state (handlePresetChange index st).1.2))
        ∧ NoDup (KLineType_label
                   <$> selectedLevels (state (handlePresetChange index st).1.2))
        ∧ (chartHeight (selectedLevels (state (handlePresetChange index st).1.2)) = 400
           ∨ chartHeight (selectedLevels (state (handlePresetChange index st).1.2)) = 300)%Z
        ∧ history (state (handlePresetChange index st).1.2) = history (state st)
        ∧ currentStock (state (handlePresetChange index st).1.2)
          = currentStock (state st)
    | Some Js.TypeError =>
        ¬ (0 <= index < 6)%Z
        ∧ (handlePresetChange index st).1.2 = st
    end.
Proof.
  split; [unfold handlePresetChange; by destruct (Js.index PRESET_LEVELS index)|].
  unfold handlePresetChange, Js.index.
  destruct (Z.ltb_spec index 0); [cbn; split; [lia | done]|].
  destruct (Z.to_nat index) as [|[|[|[|[|[|n]]]]]] eqn:Hn; cbn;
    [| | | | | | destruct n; cbn; (split; [lia | done])].
  all: split; [lia|]; split; [done|].
  all: split; [by_evaluation|].
  all: split; [auto | done].
Qed.
(** X23: when the analysis of a stock just selected in the search box
    succeeds, the result is stored and the history stays as the selection
    left it: the stock is not added a second time. *)
Theorem success_after_select (onSelect : option (StockInfo → Store → Store))
    stock (ui : SearchState) st data (mdata : MultiLevelResult) :
  onSelect = None ∨ onSelect = Some handleSelectStock →
  analysisResult
    (state (single_onSuccess (currentStock (state (handleSelect onSelect stock ui st).2))
              data (handleSelect onSelect stock ui st).2)) = Some data
  ∧ history
      (state (single_onSuccess (currentStock (state (handleSelect onSelect stock ui st).2))
                data (handleSelect onSelect stock ui st).2))
    = history (state (handleSelect onSelect stock ui st).2)
  ∧ multiLevelResult
      (state (multi_onSuccess (currentStock (state (handleSelect onSelect stock ui st).2))
                mdata (handleSelect onSelect stock ui st).2)) = Some mdata
  ∧ history
      (state (multi_onSuccess (currentStock (state (handleSelect onSelect stock ui st).2))
                mdata (handleSelect onSelect stock ui st).2))
    = history (state (handleSelect onSelect stock ui st).2).
Proof.
  intros Hon.
  assert (currentStock (state (handleSelect onSelect stock ui st).2) = Some stock
          ∧ history (state (handleSelect onSelect stock ui st).2)
            = take 20 (stock :: filter (λ s, code s ≠ code stock) (history (state st))))
    as [Hcur Hhist] by (by destruct Hon as [-> | ->]).
  rewrite Hcur. unfold single_onSuccess, multi_onSuccess.
  split; [done|]. split.
  - by rewrite (history_again stock _ (history (state st))).
  - split; [done|]. by rewrite (history_again stock _ (history (state st))).
Qed.

End PagesFacts.

(** ** The properties above at concrete inputs *)

Lemma history_most_recent_first_witness :
  history (state (calls (AddToHistory <$> Samples.three_stocks) Examples.store_after_two))
  = take 20 (reverse Samples.three_stocks
             ++ filter (λ s, code s ∉ code <$> Samples.three_stocks)
                  (history (state Examples.store_after_two)))%list.
Proof.
  apply (history_most_recent_first Samples.three_stocks Examples.store_after_two).
  - discriminate.
  - apply (bool_decide_unpack _). vm_compute. exact I.
  - apply (bool_decide_unpack _). vm_compute. exact I.
Defined.

Lemma history_invariant_witness :
  (length (history (state (calls [AddToHistory Examples.pufa; ClearHistory;
                                   AddToHistory Examples.vanke] initial_store))) ≤ 20)%nat
  ∧ NoDup (code <$> history (state (calls [AddToHistory Examples.pufa; ClearHistory;
                                   AddToHistory Examples.vanke] initial_store))).
Proof.
  apply (history_invariant [AddToHistory Examples.pufa; ClearHistory;
                            AddToHistory Examples.vanke] initial_store).
  - simpl. lia.
  - apply (bool_decide_unpack _). vm_compute. exact I.
Defined.

Lemma calls_commute_witness :
  call (SetPeriods 100) (call (AddToHistory Examples.pingan) initial_store)
  = call (AddToHistory Examples.pingan) (call (SetPeriods 100) initial_store).
Proof.
  apply (calls_commute (SetPeriods 100) (AddToHistory Examples.pingan) initial_store).
  simpl. discriminate.
Defined.

Lemma last_write_wins_witness :
  call ClearHistory (call (AddToHistory Examples.pingan) initial_store)
  = call ClearHistory initial_store.
Proof.
  apply (last_write_wins ClearHistory (AddToHistory Examples.pingan) initial_store).
  - reflexivity.
  - reflexivity.
Defined.

Lemma toggleOption_involutive_witness :
  state (toggleOption "showBi" (toggleOption "showBi" initial_store))
  = state initial_store.
Proof.
  apply (toggleOption_involutive "showBi" true initial_store).
  vm_compute. reflexivity.
Defined.

Lemma toggles_keep_PlotConfig_witness :
  PlotConfig_typed
    (plotConfig (state (foldr toggleOption initial_store ["showBi"; "showMacd"; "showBi"]))).
Proof.
  apply (toggles_keep_PlotConfig ["showBi"; "showMacd"; "showBi"] initial_store).
  - apply (bool_decide_unpack _). vm_compute. exact I.
  - exact initial_plotConfig_typed.
Defined.

Lemma arrows_stay_in_range_witness :
  (0 <= selectedIndex (handleKeyDown None Samples.three_stocks ArrowDown
                         Samples.open_ui initial_store).1
      < Z.of_nat (length Samples.three_stocks))%Z
  ∧ keyword (handleKeyDown None Samples.three_stocks ArrowDown
               Samples.open_ui initial_store).1 = keyword Samples.open_ui
  ∧ isOpen (handleKeyDown None Samples.three_stocks ArrowDown
              Samples.open_ui initial_store).1 = true
  ∧ (handleKeyDown None Samples.three_stocks ArrowDown
       Samples.open_ui initial_store).2 = initial_store.
Proof.
  apply (arrows_stay_in_range None ArrowDown Samples.open_ui initial_store
           Samples.three_stocks).
  - left. reflexivity.
  - reflexivity.
  - discriminate.
  - simpl. lia.
Defined.

Lemma arrows_inverse_witness :
  (handleKeyDown None Samples.three_stocks ArrowUp
     (handleKeyDown None Samples.three_stocks ArrowDown
        Samples.open_ui initial_store).1 initial_store).1 = Samples.open_ui
  ∧ (handleKeyDown None Samples.three_stocks ArrowDown
       (handleKeyDown None Samples.three_stocks ArrowUp
          Samples.open_ui initial_store).1 initial_store).1 = Samples.open_ui.
Proof.
  apply (arrows_inverse None Samples.open_ui initial_store Samples.three_stocks).
  - reflexivity.
  - discriminate.
  - simpl. lia.
Defined.

Lemma arrows_cycle_witness :
  selectedIndex (press None Samples.three_stocks ArrowDown 5
                   Samples.open_ui initial_store).1
  = ((selectedIndex Samples.open_ui + Z.of_nat 5)
     mod Z.of_nat (length Samples.three_stocks))%Z
  ∧ selectedIndex (press None Samples.three_stocks ArrowUp 5
                     Samples.open_ui initial_store).1
    = ((selectedIndex Samples.open_ui - Z.of_nat 5)
       mod Z.of_nat (length Samples.three_stocks))%Z
  ∧ (press None Samples.three_stocks ArrowDown (length Samples.three_stocks)
       Samples.open_ui initial_store).1 = Samples.open_ui
  ∧ (press None Samples.three_stocks ArrowUp (length Samples.three_stocks)
       Samples.open_ui initial_store).1 = Samples.open_ui.
Proof.
  apply (arrows_cycle None 5 Samples.open_ui initial_store Samples.three_stocks).
  - reflexivity.
  - discriminate.
  - simpl. lia.
Defined.

Lemma enter_selects_witness :
  currentStock (state (handleKeyDown None Samples.three_stocks Enter
                         Samples.open_ui initial_store).2) = Some Examples.pufa
  ∧ history (state (handleKeyDown None Samples.three_stocks Enter
                      Samples.open_ui initial_store).2)
    = take 20 (Examples.pufa
               :: filter (λ s, code s ≠ code Examples.pufa)
                    (history (state initial_store)))
  ∧ isOpen (handleKeyDown None Samples.three_stocks Enter
              Samples.open_ui initial_store).1 = false
  ∧ keyword (handleKeyDown None Samples.three_stocks Enter
               Samples.open_ui initial_store).1
    = code Examples.pufa ++ "  " ++ name Examples.pufa.
Proof.
  apply (enter_selects None Samples.three_stocks Samples.open_ui initial_store
           Examples.pufa).
  - left. reflexivity.
  - reflexivity.
  - reflexivity.
Defined.

Lemma keys_ignored_witness :
  handleKeyDown None Samples.three_stocks Enter Samples.closed_ui initial_store
  = (Samples.closed_ui, initial_store).
Proof.
  apply (keys_ignored None Samples.three_stocks Enter Samples.closed_ui initial_store).
  left. reflexivity.
Defined.

Lemma one_current_badge_witness :
  filter (λ s, is_current
                 (currentStock (state (handleSelect None Examples.pingan
                                         Samples.open_ui Examples.store_after_two).2)) s)
         (history (state (handleSelect None Examples.pingan
                            Samples.open_ui Examples.store_after_two).2))
  = [Examples.pingan].
Proof.
  apply (one_current_badge None Examples.pingan Samples.open_ui Examples.store_after_two).
  left. reflexivity.
Defined.

Lemma kline_date_drops_time_witness :
  kline_date Samples.candle_0 = "2024-01-02"
  ∧ c_time (candle_of Samples.candle_0) = c_time (candle_of Samples.candle_1).
Proof.
  apply (kline_date_drops_time Samples.candle_2 Samples.candle_0 Samples.candle_1
           "2024-01-02" "10:30" "11:30").
  - apply (bool_decide_unpack _). vm_compute. exact I.
  - reflexivity.
  - reflexivity.
Defined.



Lemma recent_signals_witness :
  recentBsp Samples.hourly_result = bsp_list Samples.hourly_result.
Proof.
  apply (recent_signals Samples.hourly_result).
  simpl. lia.
Defined.

Lemma level_charts_selected_witness :
  (λ c, c.1.1) <$> level_charts [K_DAY] Samples.daily_only = [K_DAY].
Proof.
  apply (level_charts_selected [K_DAY] Samples.daily_only K_DAY
           Samples.hourly_result 250).
  intros l Hl. apply list_elem_of_singleton in Hl. subst l.
  vm_compute. eexists. reflexivity.
Defined.

Lemma success_after_select_witness :
  history
    (state (single_onSuccess
              (currentStock (state (handleSelect None Examples.pingan
                                      Samples.open_ui initial_store).2))
              Samples.hourly_result
              (handleSelect None Examples.pingan Samples.open_ui initial_store).2))
  = history (state (handleSelect None Examples.pingan Samples.open_ui initial_store).2).
Proof.
  apply (success_after_select None Examples.pingan Samples.open_ui initial_store
           Samples.hourly_result Samples.daily_only).
  left. reflexivity.
Defined.
